(** * A shallow embedding of the search dispatcher of [api.py]

    The FastAPI service of [api.py] validates a search request, compiles an
    optional title filter, calls the Gemini embedding provider when the mode
    needs a dense vector, issues one Milvus request and normalises the
    returned batches into a [SearchResponse].

    The two collaborators (Gemini and Milvus) are parameters of the
    development: every operation takes their answers as functions.  Every call
    made to a collaborator is recorded in a log, so that statements can speak
    about which calls a request causes and in which order. *)

From Stdlib Require Import String Ascii List ZArith QArith Bool Lia.
Import ListNotations.
Open Scope list_scope.
Open Scope string_scope.

(** ** Characters and Python string helpers *)

(** The double quote, the single quote and the backslash characters. *)
Definition dq_char : ascii := "034"%char.
Definition sq_char : ascii := "039"%char.
Definition bs_char : ascii := "092"%char.

Definition dq : string := String dq_char EmptyString.
Definition sq : string := String sq_char EmptyString.
Definition bs : string := String bs_char EmptyString.

(** [str.lower()] on the ASCII range: 'A'..'Z' become 'a'..'z'. *)
Definition lower_char (c : ascii) : ascii :=
  let n := nat_of_ascii c in
  if Nat.leb 65 n && Nat.leb n 90 then ascii_of_nat (n + 32)%nat else c.

Fixpoint lower (s : string) : string :=
  match s with
  | EmptyString => EmptyString
  | String c s' => String (lower_char c) (lower s')
  end.

(** [s.replace(old_char, new)] for a one-character [old]. *)
Fixpoint replace_char (c : ascii) (by_ : string) (s : string) : string :=
  match s with
  | EmptyString => EmptyString
  | String c' s' =>
      if Ascii.eqb c' c then by_ ++ replace_char c by_ s'
      else String c' (replace_char c by_ s')
  end.

(** [", ".join(xs)] and [" && ".join(xs)]. *)
Fixpoint join (sep : string) (xs : list string) : string :=
  match xs with
  | [] => EmptyString
  | [x] => x
  | x :: xs' => x ++ sep ++ join sep xs'
  end.

(** Python truthiness of an [Optional[str]]: [None] and [""] are false. *)
Definition truthy_opt (o : option string) : bool :=
  match o with
  | Some s => negb (String.eqb s EmptyString)
  | None => false
  end.

(** ** Data model *)

(** The values of an embedding vector (floats, never computed on here). *)
Definition vector := list Q.

(** The [id] of a Milvus hit (an [Any]: numeric or string). *)
Inductive hit_id :=
| IdInt (n : Z)
| IdStr (s : string).

(** The [entity] map of a hit: field name to field value. *)
Definition entity := list (string * string).

(** A Milvus hit as the code reads it with [hit.get(...)]: every key may be
    absent. *)
Record Hit := {
  hit_get_id : option hit_id;
  hit_get_distance : option Q;
  hit_get_entity : option entity
}.

(** The result of a Milvus search: one batch of hits per query vector. *)
Definition batches := list (list Hit).

Module SearchFilter.
Record t := { title : option string }.
End SearchFilter.

Module SearchRequest.
Record t := {
  query : string;
  search_type : string;
  limit : Z;
  return_text : bool;
  filter : option SearchFilter.t
}.
End SearchRequest.

(** The query parameters of [GET /search]. *)
Module SearchQueryParams.
Record t := {
  query : string;
  search_type : string;
  limit : Z;
  return_text : bool;
  title_filter : option string
}.
End SearchQueryParams.

Module SearchResult.
Record t := {
  id : option hit_id;
  distance : Q;
  entity : entity
}.
End SearchResult.

Module SearchResponse.
Record t := {
  query : string;
  search_type : string;
  results : list SearchResult.t;
  count : nat
}.
End SearchResponse.

(** The [data] entries of a Milvus request: a text (sparse BM25 search) or a
    dense embedding. *)
Inductive search_datum :=
| DText (s : string)
| DVector (v : vector).

(** The dict [search_params] passed as keyword arguments to
    [milvus_client.search];
    [filter] is [None] when the key is absent from the dict. *)
Record search_params := {
  collection_name : string;
  data : list search_datum;
  anns_field : string;
  limit : Z;
  output_fields : list string;
  filter : option string
}.

(** [RRFRanker(k)]; [RRFRanker()] uses pymilvus' default [k = 60]. *)
Inductive ranker := RRFRanker (k : Z).

(** An [AnnSearchRequest] built from the dict [search_param]; [expr] is
    [None] when the key is absent from the dict. *)
Record ann_request := {
  ann_data : list search_datum;
  ann_anns_field : string;
  ann_param : list (string * Q);
  ann_limit : Z;
  ann_expr : option string
}.

(** The keyword arguments of [milvus_client.hybrid_search(...)]. *)
Record hybrid_params := {
  hybrid_collection_name : string;
  reqs : list ann_request;
  hybrid_ranker : ranker;
  hybrid_limit : Z;
  hybrid_output_fields : list string
}.

(** ** Calls to the collaborators and exceptions *)

Inductive call :=
| CallEmbedContent (model : string) (contents : string)
| CallSearch (p : search_params)
| CallHybridSearch (p : hybrid_params).

Definition is_embed_call (c : call) : bool :=
  match c with CallEmbedContent _ _ => true | _ => false end.

Definition is_milvus_call (c : call) : bool :=
  match c with CallEmbedContent _ _ => false | _ => true end.

(** Exceptions: FastAPI's [HTTPException], FastAPI's request validation
    error (status 422, listing the offending fields), and any other
    exception, with its [str(e)]. *)
Inductive exn :=
| HTTPException (status_code : Z) (detail : string)
| RequestValidationError (locs : list string)
| Exception (msg : string).

Definition str_exn (e : exn) : string :=
  match e with
  | HTTPException _ d => d
  | RequestValidationError _ => "validation error"
  | Exception m => m
  end.

(** ** The state and exception monad

    A computation reads and extends the log of collaborator calls made so
    far, and either raises an exception or returns a value. *)

Definition M (A : Type) : Type := list call -> (exn + A) * list call.

Definition ret {A} (a : A) : M A := fun log => (inr a, log).

Definition bind {A B} (m : M A) (f : A -> M B) : M B :=
  fun log =>
    match m log with
    | (inl e, log') => (inl e, log')
    | (inr a, log') => f a log'
    end.

Definition raise {A} (e : exn) : M A := fun log => (inl e, log).

(** [try: m except: h]. *)
Definition try_except {A} (m : M A) (h : exn -> M A) : M A :=
  fun log =>
    match m log with
    | (inl e, log') => h e log'
    | r => r
    end.

Definition fmap {A B} (f : A -> B) (m : M A) : M B :=
  bind m (fun a => ret (f a)).

Notation "x <- m ;; k" := (bind m (fun x => k))
  (at level 61, m at next level, right associativity).

(** Running a request from an empty log. *)
Definition run {A} (m : M A) : (exn + A) * list call := m [].

(** ** The service *)

(** [build_filter_expression]. *)
Definition build_filter_expression (filter_obj : option SearchFilter.t)
  : option string :=
  match filter_obj with
  | None => None
  | Some f =>
      let conditions :=
        match SearchFilter.title f with
        | Some t =>
            if String.eqb t EmptyString then []
            else ["title == " ++ dq ++ t ++ dq]
        | None => []
        end in
      match conditions with
      | [] => None
      | _ => Some (join " && " conditions)
      end
  end.

(** One hit of [format_results]: [hit.get('id')],
    [hit.get('distance', 0.0)], [hit.get('entity', {})]. *)
Definition format_hit (hit : Hit) : SearchResult.t :=
  {| SearchResult.id := hit_get_id hit;
     SearchResult.distance :=
       match hit_get_distance hit with Some d => d | None => 0%Q end;
     SearchResult.entity :=
       match hit_get_entity hit with Some e => e | None => [] end |}.

(** The two nested loops of [format_results]. *)
Fixpoint format_batches (results : batches) : list SearchResult.t :=
  match results with
  | [] => []
  | result_list :: rest => (map format_hit result_list ++ format_batches rest)%list
  end.

(** [format_results]. *)
Definition format_results (results : batches) (query search_type : string)
  : SearchResponse.t :=
  let formatted_results := format_batches results in
  {| SearchResponse.query := query;
     SearchResponse.search_type := search_type;
     SearchResponse.results := formatted_results;
     SearchResponse.count := length formatted_results |}.

(** [if filter_expr: params[key] = filter_expr]: the key is present only
    when the expression is truthy. *)
Definition opt_key (filter_expr : option string) : option string :=
  if truthy_opt filter_expr then filter_expr else None.

(** [output_fields = ['text'] if return_text else []]. *)
Definition output_fields_for (return_text : bool) : list string :=
  if return_text then ["text"] else [].

Definition valid_types : list string := ["hybrid"; "bm25"; "semantic"; "exact"].

Definition invalid_search_type_detail : string :=
  "Invalid search_type. Must be one of: " ++ join ", " valid_types.

(** The per-field errors of FastAPI's validation of [GET /search]:
    [limit] has [ge=1, le=100]; [query] is required but has no length
    constraint. *)
Definition get_validation_errors (p : SearchQueryParams.t) : list string :=
  let l := SearchQueryParams.limit p in
  if (1 <=? l)%Z && (l <=? 100)%Z then [] else ["limit"].

(** The per-field errors of pydantic's validation of a [SearchRequest]:
    [query] has [min_length=1]; [limit] has [ge=1, le=100]. *)
Definition post_validation_errors (r : SearchRequest.t) : list string :=
  let l := SearchRequest.limit r in
  ((if Nat.ltb (String.length (SearchRequest.query r)) 1 then ["query"] else [])
  ++ (if (1 <=? l)%Z && (l <=? 100)%Z then [] else ["limit"]))%list.

(** ** Observations on the call log *)

(** The number of calls to the embedding provider in a log. *)
Definition count_embeds (log : list call) : nat :=
  length (List.filter is_embed_call log).

(** The filter clauses a Milvus call carries: the [filter] key of a
    [search], the [expr] keys of the requests of a [hybrid_search]. *)
Definition call_filter_clauses (c : call) : list string :=
  match c with
  | CallEmbedContent _ _ => []
  | CallSearch p => match filter p with Some f => [f] | None => [] end
  | CallHybridSearch p =>
      flat_map (fun r => match ann_expr r with Some e => [e] | None => [] end)
        (reqs p)
  end.

(** The output fields a Milvus call requests. *)
Definition call_output_fields (c : call) : option (list string) :=
  match c with
  | CallEmbedContent _ _ => None
  | CallSearch p => Some (output_fields p)
  | CallHybridSearch p => Some (hybrid_output_fields p)
  end.

(** The keys of a hit's entity are among the requested output fields (the
    contract of Milvus' [output_fields]). *)
Definition hit_within (fields : list string) (h : Hit) : Prop :=
  match hit_get_entity h with
  | Some e => Forall (fun kv => In (fst kv) fields) e
  | None => True
  end.

(** The body of a single-quoted string literal of the filter expression
    language, read after its opening quote, with the escaping that
    [perform_exact_search] relies on: a backslash makes the next character
    literal, an unescaped single quote closes the literal.  Returns the
    decoded body and the text after the closing quote, or [None] when the
    literal is never closed. *)
Fixpoint scan_literal (s : string) : option (string * string) :=
  match s with
  | EmptyString => None
  | String c s' =>
      if Ascii.eqb c sq_char then Some (EmptyString, s')
      else if Ascii.eqb c bs_char then
        match s' with
        | EmptyString => None
        | String c2 s'' =>
            option_map (fun br => (String c2 (fst br), snd br)) (scan_literal s'')
        end
      else option_map (fun br => (String c (fst br), snd br)) (scan_literal s')
  end.

(** The head of every phrase predicate, up to and including the opening
    quote of its literal. *)
Definition phrase_head : string := "PHRASE_MATCH(text, '".

(** Whether a character occurs in a string. *)
Fixpoint contains_char (c : ascii) (s : string) : bool :=
  match s with
  | EmptyString => false
  | String c' s' => Ascii.eqb c' c || contains_char c s'
  end.

(** ** Concrete collaborators, for evaluating the development *)

(** A Gemini that answers one two-dimensional embedding. *)
Definition demo_embed (text : string) : string + list vector :=
  inr [[1 # 2; 1 # 3]].

(** A hit with an id and no [distance] nor [entity] key. *)
Definition demo_hit : Hit :=
  {| hit_get_id := Some (IdInt 7); hit_get_distance := None;
     hit_get_entity := None |}.

(** A Milvus that answers one batch holding [demo_hit] to every request. *)
Definition demo_search (p : search_params) : string + batches := inr [[demo_hit]].
Definition demo_hybrid (p : hybrid_params) : string + batches := inr [[demo_hit]].

(** A Gemini and a Milvus whose every call raises. *)
Definition failing_embed (text : string) : string + list vector := inl "quota exceeded".
Definition failing_search (p : search_params) : string + batches := inl "timeout".



Definition demo_params (mode : string) (query : string) : SearchQueryParams.t :=
  {| SearchQueryParams.query := query; SearchQueryParams.search_type := mode;
     SearchQueryParams.limit := 10; SearchQueryParams.return_text := false;
     SearchQueryParams.title_filter := None |}.

Definition demo_request (mode : string) (query : string) : SearchRequest.t :=
  {| SearchRequest.query := query; SearchRequest.search_type := mode;
     SearchRequest.limit := 10; SearchRequest.return_text := false;
     SearchRequest.filter := None |}.

(** ** Start-up configuration *)




(** ** Further observations on the call log *)

(** The number of Milvus calls in a log. *)
Definition count_milvus (log : list call) : nat :=
  length (List.filter is_milvus_call log).

(** The limits a Milvus call carries: the [limit] of a [search]; the
    top-level [limit] and those of the requests of a [hybrid_search]. *)
Definition call_limits (c : call) : list Z :=
  match c with
  | CallEmbedContent _ _ => []
  | CallSearch p => [limit p]
  | CallHybridSearch p => hybrid_limit p :: map ann_limit (reqs p)
  end.

(** The dense vectors a Milvus call sends. *)
Definition call_vectors (c : call) : list vector :=
  let vecs := flat_map (fun d => match d with DVector v => [v] | DText _ => [] end) in
  match c with
  | CallEmbedContent _ _ => []
  | CallSearch p => vecs (data p)
  | CallHybridSearch p => flat_map (fun r => vecs (ann_data r)) (reqs p)
  end.

(** The [SearchRequest] body that carries the same fields as the query
    parameters of a [GET /search]. *)
Definition request_of_params (p : SearchQueryParams.t) : SearchRequest.t :=
  {| SearchRequest.query := SearchQueryParams.query p;
     SearchRequest.search_type := SearchQueryParams.search_type p;
     SearchRequest.limit := SearchQueryParams.limit p;
     SearchRequest.return_text := SearchQueryParams.return_text p;
     SearchRequest.filter :=
       Some {| SearchFilter.title := SearchQueryParams.title_filter p |} |}.

Section Service.

(** [MILVUS_COLLECTION_NAME]. *)
Variable collection : string.

(** The answer of Gemini's [embed_content] to a text: an exception (its
    message) or the list of returned embeddings. *)
Variable embed_content : string -> string + list vector.

(** The answers of Milvus' [search] and [hybrid_search]: an exception (its
    message) or the returned batches. *)
Variable milvus_search : search_params -> string + batches.
Variable milvus_hybrid_search : hybrid_params -> string + batches.

(** A collaborator call: logged, then answered. *)
Definition collaborator {A} (c : call) (answer : string + A) : M A :=
  fun log =>
    let log' := (log ++ [c])%list in
    match answer with
    | inl msg => (inl (Exception msg), log')
    | inr a => (inr a, log')
    end.

Definition embed_content_call (text : string) : M (list vector) :=
  collaborator (CallEmbedContent "gemini-embedding-001" text) (embed_content text).

Definition search_call (p : search_params) : M batches :=
  collaborator (CallSearch p) (milvus_search p).

Definition hybrid_search_call (p : hybrid_params) : M batches :=
  collaborator (CallHybridSearch p) (milvus_hybrid_search p).

(** [get_embedding]: the first embedding of the answer; an empty answer
    raises [IndexError]; every exception becomes an [HTTPException] 500. *)
Definition get_embedding (text : string) : M vector :=
  try_except
    (embeddings <- embed_content_call text ;;
     match embeddings with
     | v :: _ => ret v
     | [] => raise (Exception "list index out of range")
     end)
    (fun e => raise (HTTPException 500 ("Error generating embedding: " ++ str_exn e))).

(** [perform_hybrid_search]. *)
Definition perform_hybrid_search (query : string) (limit : Z)
    (filter_expr : option string) (return_text : bool) : M SearchResponse.t :=
  embedding <- get_embedding query ;;
  let request_1 :=
    {| ann_data := [DText query]; ann_anns_field := "sparce_vector";
       ann_param := []; ann_limit := limit; ann_expr := opt_key filter_expr |} in
  let request_2 :=
    {| ann_data := [DVector embedding]; ann_anns_field := "dense_vector";
       ann_param := [("drop_ratio_search", 1 # 5)]; ann_limit := limit;
       ann_expr := opt_key filter_expr |} in
  let output_fields := output_fields_for return_text in
  results <- hybrid_search_call
    {| hybrid_collection_name := collection;
       reqs := [request_1; request_2];
       hybrid_ranker := RRFRanker 60;
       hybrid_limit := limit;
       hybrid_output_fields := output_fields |} ;;
  ret (format_results results query "hybrid").

(** [perform_bm25_search]. *)
Definition perform_bm25_search (query : string) (limit : Z)
    (filter_expr : option string) (return_text : bool) : M SearchResponse.t :=
  let output_fields := output_fields_for return_text in
  results <- search_call
    {| collection_name := collection; data := [DText query];
       anns_field := "sparce_vector"; limit := limit;
       output_fields := output_fields; filter := opt_key filter_expr |} ;;
  ret (format_results results query "bm25").

(** [perform_semantic_search]. *)
Definition perform_semantic_search (query : string) (limit : Z)
    (filter_expr : option string) (return_text : bool) : M SearchResponse.t :=
  embedding <- get_embedding query ;;
  let output_fields := output_fields_for return_text in
  results <- search_call
    {| collection_name := collection; data := [DVector embedding];
       anns_field := "dense_vector"; limit := limit;
       output_fields := output_fields; filter := opt_key filter_expr |} ;;
  ret (format_results results query "semantic").

(** [escaped_query = query.replace("'", "\\'")]: a backslash before each
    single quote. *)
Definition escape_query (query : string) : string :=
  replace_char sq_char (bs ++ sq) query.

Definition phrase_filter (query : string) : string :=
  "PHRASE_MATCH(text, '" ++ escape_query query ++ "')".

(** [final_filter] of [perform_exact_search]. *)
Definition exact_final_filter (query : string) (filter_expr : option string)
  : string :=
  if truthy_opt filter_expr then
    match filter_expr with
    | Some f => phrase_filter query ++ " && " ++ f
    | None => phrase_filter query
    end
  else phrase_filter query.

(** [perform_exact_search]. *)
Definition perform_exact_search (query : string) (limit : Z)
    (filter_expr : option string) (return_text : bool) : M SearchResponse.t :=
  let final_filter := exact_final_filter query filter_expr in
  let output_fields := output_fields_for return_text in
  results <- search_call
    {| collection_name := collection; data := [DText query];
       anns_field := "sparce_vector"; limit := limit;
       output_fields := output_fields; filter := Some final_filter |} ;;
  ret (format_results results query "exact").

(** The [if/elif] routing shared by both endpoints; the chain has no
    [else], so a fall-through returns [None]. *)
Definition route (search_type_lower query : string) (limit : Z)
    (filter_expr : option string) (return_text : bool)
  : M (option SearchResponse.t) :=
  if String.eqb search_type_lower "hybrid" then
    fmap Some (perform_hybrid_search query limit filter_expr return_text)
  else if String.eqb search_type_lower "bm25" then
    fmap Some (perform_bm25_search query limit filter_expr return_text)
  else if String.eqb search_type_lower "semantic" then
    fmap Some (perform_semantic_search query limit filter_expr return_text)
  else if String.eqb search_type_lower "exact" then
    fmap Some (perform_exact_search query limit filter_expr return_text)
  else ret None.

(** [except HTTPException: raise] /
    [except Exception as e: raise HTTPException(500, ...)]. *)
Definition search_failed {A} (m : M A) : M A :=
  try_except m
    (fun e =>
       match e with
       | HTTPException _ _ => raise e
       | _ => raise (HTTPException 500 ("Search failed: " ++ str_exn e))
       end).

(** The body of [unified_search] (GET). *)
Definition unified_search (query search_type : string) (limit : Z)
    (return_text : bool) (title_filter : option string)
  : M (option SearchResponse.t) :=
  search_failed
    (let search_type_lower := lower search_type in
     if negb (existsb (String.eqb search_type_lower) valid_types) then
       raise (HTTPException 400 invalid_search_type_detail)
     else
       let filter_expr :=
         match title_filter with
         | Some t =>
             if String.eqb t EmptyString then None
             else Some ("title == " ++ dq ++ t ++ dq)
         | None => None
         end in
       route search_type_lower query limit filter_expr return_text).

(** The body of [unified_search_post] (POST). *)
Definition unified_search_post (req : SearchRequest.t)
  : M (option SearchResponse.t) :=
  search_failed
    (let search_type_lower := lower (SearchRequest.search_type req) in
     if negb (existsb (String.eqb search_type_lower) valid_types) then
       raise (HTTPException 400 invalid_search_type_detail)
     else
       let filter_expr := build_filter_expression (SearchRequest.filter req) in
       route search_type_lower (SearchRequest.query req)
         (SearchRequest.limit req) filter_expr (SearchRequest.return_text req)).

(** [GET /search]: FastAPI validates the query parameters, then runs
    [unified_search]. *)
Definition get_search (p : SearchQueryParams.t) : M (option SearchResponse.t) :=
  match get_validation_errors p with
  | [] =>
      unified_search (SearchQueryParams.query p) (SearchQueryParams.search_type p)
        (SearchQueryParams.limit p) (SearchQueryParams.return_text p)
        (SearchQueryParams.title_filter p)
  | errs => raise (RequestValidationError errs)
  end.

(** [POST /search]: pydantic validates the body, then
    [unified_search_post] runs. *)
Definition post_search (req : SearchRequest.t) : M (option SearchResponse.t) :=
  match post_validation_errors req with
  | [] => unified_search_post req
  | errs => raise (RequestValidationError errs)
  end.

(** The parameters of the request each mode sends, as built inline by the
    [perform_*] functions. *)
Definition bm25_params (query : string) (limit : Z) (filter_expr : option string)
    (return_text : bool) : search_params :=
  {| collection_name := collection; data := [DText query];
     anns_field := "sparce_vector"; limit := limit;
     output_fields := output_fields_for return_text;
     filter := opt_key filter_expr |}.

Definition semantic_params (embedding : vector) (limit : Z)
    (filter_expr : option string) (return_text : bool) : search_params :=
  {| collection_name := collection; data := [DVector embedding];
     anns_field := "dense_vector"; limit := limit;
     output_fields := output_fields_for return_text;
     filter := opt_key filter_expr |}.

Definition exact_params (query : string) (limit : Z) (filter_expr : option string)
    (return_text : bool) : search_params :=
  {| collection_name := collection; data := [DText query];
     anns_field := "sparce_vector"; limit := limit;
     output_fields := output_fields_for return_text;
     filter := Some (exact_final_filter query filter_expr) |}.

Definition hybrid_params_of (query : string) (embedding : vector) (limit : Z)
    (filter_expr : option string) (return_text : bool) : hybrid_params :=
  {| hybrid_collection_name := collection;
     reqs :=
       [{| ann_data := [DText query]; ann_anns_field := "sparce_vector";
           ann_param := []; ann_limit := limit; ann_expr := opt_key filter_expr |};
        {| ann_data := [DVector embedding]; ann_anns_field := "dense_vector";
           ann_param := [("drop_ratio_search", 1 # 5)]; ann_limit := limit;
           ann_expr := opt_key filter_expr |}];
     hybrid_ranker := RRFRanker 60;
     hybrid_limit := limit;
     hybrid_output_fields := output_fields_for return_text |}.

(** The answer of a Milvus call as the code sees it. *)
Definition answer {A} (a : string + A) : exn + A :=
  match a with inl m => inl (Exception m) | inr b => inr b end.

Definition embed_error (m : string) : exn :=
  HTTPException 500 ("Error generating embedding: " ++ m).

Definition embed_call_of (query : string) : call :=
  CallEmbedContent "gemini-embedding-001" query.

(** The inline filter compilation of [unified_search] (GET). *)
Definition title_filter_expr (title_filter : option string) : option string :=
  match title_filter with
  | Some t =>
      if String.eqb t EmptyString then None
      else Some ("title == " ++ dq ++ t ++ dq)
  | None => None
  end.

(** ** [debug_search] *)

(** [str(...)] of the opaque objects [debug_search] prints: the result of a
    search, its first batch, its type, and the type of the exception raised
    by a failing search (given its message). *)
Variable str_results : batches -> string.
Variable str_batch : list Hit -> string.
Variable str_results_type : string.
Variable str_exception_type : string -> string.




(** The answer Milvus gives to a logged call. *)
Definition milvus_answer (c : call) : option (string + batches) :=
  match c with
  | CallEmbedContent _ _ => None
  | CallSearch p => Some (milvus_search p)
  | CallHybridSearch p => Some (milvus_hybrid_search p)
  end.

(** The possible logs of a dispatch. *)
Definition log_shape (q : string) (log : list call) : Prop :=
  log = [] \/
  (exists c, log = [c] /\ is_milvus_call c = true) \/
  log = [embed_call_of q] \/
  (exists c, log = [embed_call_of q; c] /\ is_milvus_call c = true).

(** *** How each mode extends the log *)

Ltac unfold_m :=
  unfold bind, ret, raise, try_except, fmap, collaborator,
    embed_content_call, search_call, hybrid_search_call in *.

Lemma get_embedding_log (text : string) (log : list call) :
  get_embedding text log =
  (match embed_content text with
   | inl m => inl (embed_error m)
   | inr [] => inl (embed_error "list index out of range")
   | inr (v :: _) => inr v
   end, (log ++ [embed_call_of text])%list).
Proof.
  unfold get_embedding; unfold_m.
  destruct (embed_content text) as [m | [| v vs]]; reflexivity.
Qed.

Lemma perform_bm25_search_log q l f rt log :
  perform_bm25_search q l f rt log =
  (match answer (milvus_search (bm25_params q l f rt)) with
   | inl e => inl e
   | inr b => inr (format_results b q "bm25")
   end, (log ++ [CallSearch (bm25_params q l f rt)])%list).
Proof.
  unfold perform_bm25_search, answer; unfold_m; fold (bm25_params q l f rt).
  destruct (milvus_search (bm25_params q l f rt)); reflexivity.
Qed.

Lemma perform_exact_search_log q l f rt log :
  perform_exact_search q l f rt log =
  (match answer (milvus_search (exact_params q l f rt)) with
   | inl e => inl e
   | inr b => inr (format_results b q "exact")
   end, (log ++ [CallSearch (exact_params q l f rt)])%list).
Proof.
  unfold perform_exact_search, answer; unfold_m; fold (exact_params q l f rt).
  destruct (milvus_search (exact_params q l f rt)); reflexivity.
Qed.

Lemma perform_semantic_search_log q l f rt log :
  perform_semantic_search q l f rt log =
  match embed_content q with
  | inl m => (inl (embed_error m), (log ++ [embed_call_of q])%list)
  | inr [] =>
      (inl (embed_error "list index out of range"), (log ++ [embed_call_of q])%list)
  | inr (v :: _) =>
      (match answer (milvus_search (semantic_params v l f rt)) with
       | inl e => inl e
       | inr b => inr (format_results b q "semantic")
       end,
       (log ++ [embed_call_of q; CallSearch (semantic_params v l f rt)])%list)
  end.
Proof.
  unfold perform_semantic_search.
  unfold bind at 1; rewrite get_embedding_log.
  destruct (embed_content q) as [m | [| v vs]]; try reflexivity.
  unfold answer; unfold_m; fold (semantic_params v l f rt).
  destruct (milvus_search (semantic_params v l f rt)); simpl;
    rewrite <- app_assoc; reflexivity.
Qed.

Lemma perform_hybrid_search_log q l f rt log :
  perform_hybrid_search q l f rt log =
  match embed_content q with
  | inl m => (inl (embed_error m), (log ++ [embed_call_of q])%list)
  | inr [] =>
      (inl (embed_error "list index out of range"), (log ++ [embed_call_of q])%list)
  | inr (v :: _) =>
      (match answer (milvus_hybrid_search (hybrid_params_of q v l f rt)) with
       | inl e => inl e
       | inr b => inr (format_results b q "hybrid")
       end,
       (log ++ [embed_call_of q; CallHybridSearch (hybrid_params_of q v l f rt)])%list)
  end.
Proof.
  unfold perform_hybrid_search.
  unfold bind at 1; rewrite get_embedding_log.
  destruct (embed_content q) as [m | [| v vs]]; try reflexivity.
  unfold answer; unfold_m; fold (hybrid_params_of q v l f rt).
  destruct (milvus_hybrid_search (hybrid_params_of q v l f rt)); simpl;
    rewrite <- app_assoc; reflexivity.
Qed.

(** *** The dispatchers *)

Lemma search_failed_snd {A} (m : M A) log :
  snd (search_failed m log) = snd (m log).
Proof.
  unfold search_failed, try_except, raise.
  destruct (m log) as [[e | a] log']; [destruct e|]; reflexivity.
Qed.

Lemma search_failed_inr {A} (m : M A) log a log' :
  search_failed m log = (inr a, log') -> m log = (inr a, log').
Proof.
  unfold search_failed, try_except, raise.
  destruct (m log) as [[e | a'] log'']; [destruct e|]; congruence.
Qed.

Lemma fmap_snd {A B} (f : A -> B) (m : M A) log :
  snd (fmap f m log) = snd (m log).
Proof.
  unfold fmap, bind, ret. destruct (m log) as [[e | a] log']; reflexivity.
Qed.

Lemma fmap_inr {A B} (f : A -> B) (m : M A) log b log' :
  fmap f m log = (inr b, log') -> exists a, m log = (inr a, log') /\ b = f a.
Proof.
  unfold fmap, bind, ret. destruct (m log) as [[e | a] log'']; intro H;
    inversion H; subst; eauto.
Qed.

Lemma unified_search_eq q s l rt tf log :
  unified_search q s l rt tf log =
  if existsb (String.eqb (lower s)) valid_types
  then search_failed (route (lower s) q l (title_filter_expr tf) rt) log
  else (inl (HTTPException 400 invalid_search_type_detail), log).
Proof.
  unfold unified_search.
  destruct (existsb (String.eqb (lower s)) valid_types); reflexivity.
Qed.

Lemma unified_search_post_eq req log :
  unified_search_post req log =
  if existsb (String.eqb (lower (SearchRequest.search_type req))) valid_types
  then search_failed
         (route (lower (SearchRequest.search_type req)) (SearchRequest.query req)
            (SearchRequest.limit req) (build_filter_expression (SearchRequest.filter req))
            (SearchRequest.return_text req)) log
  else (inl (HTTPException 400 invalid_search_type_detail), log).
Proof.
  unfold unified_search_post.
  destruct (existsb (String.eqb (lower (SearchRequest.search_type req))) valid_types);
    reflexivity.
Qed.

Lemma valid_cases x :
  existsb (String.eqb x) valid_types = true ->
  x = "hybrid" \/ x = "bm25" \/ x = "semantic" \/ x = "exact".
Proof.
  simpl.
  destruct (String.eqb_spec x "hybrid"); [auto|].
  destruct (String.eqb_spec x "bm25"); [auto|].
  destruct (String.eqb_spec x "semantic"); [auto|].
  destruct (String.eqb_spec x "exact"); [auto|].
  discriminate.
Qed.

Lemma invalid_cases x :
  existsb (String.eqb x) valid_types = false ->
  String.eqb x "hybrid" = false /\ String.eqb x "bm25" = false /\
  String.eqb x "semantic" = false /\ String.eqb x "exact" = false.
Proof.
  simpl. intro H.
  repeat (apply Bool.orb_false_iff in H; destruct H as [? H]).
  repeat split; assumption.
Qed.

Lemma existsb_valid_In x :
  existsb (String.eqb x) valid_types = true <-> In x valid_types.
Proof.
  rewrite existsb_exists. split.
  - intros [y [Hy Heq]]. apply String.eqb_eq in Heq. subst. exact Hy.
  - intros Hx. exists x. split; [exact Hx | apply String.eqb_refl].
Qed.

(** The log of a valid mode, one case per mode. *)
Lemma route_snd x q l f rt log :
  snd (route x q l f rt log) =
  if String.eqb x "hybrid" then snd (perform_hybrid_search q l f rt log)
  else if String.eqb x "bm25" then snd (perform_bm25_search q l f rt log)
  else if String.eqb x "semantic" then snd (perform_semantic_search q l f rt log)
  else if String.eqb x "exact" then snd (perform_exact_search q l f rt log)
  else log.
Proof.
  unfold route.
  destruct (String.eqb x "hybrid"); [apply fmap_snd|].
  destruct (String.eqb x "bm25"); [apply fmap_snd|].
  destruct (String.eqb x "semantic"); [apply fmap_snd|].
  destruct (String.eqb x "exact"); [apply fmap_snd|reflexivity].
Qed.

(** A response returned by the routing is [format_results] of the
    answered batches, under the mode's name. *)
Lemma route_inr x q l f rt log r log' :
  route x q l f rt log = (inr (Some r), log') ->
  exists b, r = format_results b q x.
Proof.
  unfold route.
  destruct (String.eqb_spec x "hybrid") as [->|_].
  { intro H. apply fmap_inr in H as [a [H Ha]]. injection Ha as <-.
    rewrite perform_hybrid_search_log in H.
    destruct (embed_content q) as [m | [| v vs]]; try discriminate.
    unfold answer in H.
    destruct (milvus_hybrid_search (hybrid_params_of q v l f rt)); inversion H; eauto. }
  destruct (String.eqb_spec x "bm25") as [->|_].
  { intro H. apply fmap_inr in H as [a [H Ha]]. injection Ha as <-.
    rewrite perform_bm25_search_log in H. unfold answer in H.
    destruct (milvus_search (bm25_params q l f rt)); inversion H; eauto. }
  destruct (String.eqb_spec x "semantic") as [->|_].
  { intro H. apply fmap_inr in H as [a [H Ha]]. injection Ha as <-.
    rewrite perform_semantic_search_log in H.
    destruct (embed_content q) as [m | [| v vs]]; try discriminate.
    unfold answer in H.
    destruct (milvus_search (semantic_params v l f rt)); inversion H; eauto. }
  destruct (String.eqb_spec x "exact") as [->|_].
  { intro H. apply fmap_inr in H as [a [H Ha]]. injection Ha as <-.
    rewrite perform_exact_search_log in H. unfold answer in H.
    destruct (milvus_search (exact_params q l f rt)); inversion H; eauto. }
  unfold ret. discriminate.
Qed.

Lemma route_hybrid q l f rt :
  route "hybrid" q l f rt = fmap Some (perform_hybrid_search q l f rt).
Proof. reflexivity. Qed.
Lemma route_bm25 q l f rt :
  route "bm25" q l f rt = fmap Some (perform_bm25_search q l f rt).
Proof. reflexivity. Qed.
Lemma route_semantic q l f rt :
  route "semantic" q l f rt = fmap Some (perform_semantic_search q l f rt).
Proof. reflexivity. Qed.
Lemma route_exact q l f rt :
  route "exact" q l f rt = fmap Some (perform_exact_search q l f rt).
Proof. reflexivity. Qed.

Ltac mode_cases H :=
  apply valid_cases in H; destruct H as [-> | [-> | [-> | ->]]];
  rewrite ?route_hybrid, ?route_bm25, ?route_semantic, ?route_exact.

Lemma format_batches_length b :
  length (format_batches b) = length (concat b).
Proof.
  induction b as [| bl b IH]; [reflexivity|].
  simpl. rewrite !length_app, length_map, IH. reflexivity.
Qed.

(** The number of embedding calls of the routing, for any mode name. *)
Lemma route_count_embeds x q l f rt :
  count_embeds (snd (route x q l f rt [])) =
  if String.eqb x "hybrid" || String.eqb x "semantic" then 1%nat else 0%nat.
Proof.
  rewrite route_snd.
  destruct (String.eqb_spec x "hybrid") as [->|Hh].
  { rewrite perform_hybrid_search_log.
    destruct (embed_content q) as [m | [| v vs]]; reflexivity. }
  destruct (String.eqb_spec x "bm25") as [->|Hb].
  { rewrite perform_bm25_search_log. reflexivity. }
  destruct (String.eqb_spec x "semantic") as [->|Hs].
  { rewrite perform_semantic_search_log.
    destruct (embed_content q) as [m | [| v vs]]; reflexivity. }
  destruct (String.eqb_spec x "exact") as [->|He].
  { rewrite perform_exact_search_log. reflexivity. }
  reflexivity.
Qed.

Ltac finish_route :=
  simpl; repeat split;
  first [ discriminate
        | intros ? He; inversion He; subst; unfold embed_error; eauto ].

(** What the routing of a valid mode does: it makes at least one
    collaborator call, never falls through to [None], fails only with an
    exception of a collaborator or the 500 of [get_embedding], and returns
    a response under the mode's name. *)
Lemma route_valid x q l f rt :
  existsb (String.eqb x) valid_types = true ->
  snd (route x q l f rt []) <> [] /\
  fst (route x q l f rt []) <> inr None /\
  (forall e, fst (route x q l f rt []) = inl e ->
     (exists m, e = Exception m) \/ (exists d, e = HTTPException 500 d)) /\
  (forall r, fst (route x q l f rt []) = inr (Some r) ->
     SearchResponse.search_type r = x).
Proof.
  intro H; mode_cases H; unfold fmap, bind, ret.
  - rewrite perform_hybrid_search_log.
    destruct (embed_content q) as [m | [| v vs]];
      [| | unfold answer; destruct (milvus_hybrid_search (hybrid_params_of q v l f rt))];
      finish_route.
  - rewrite perform_bm25_search_log. unfold answer.
    destruct (milvus_search (bm25_params q l f rt)); finish_route.
  - rewrite perform_semantic_search_log.
    destruct (embed_content q) as [m | [| v vs]];
      [| | unfold answer; destruct (milvus_search (semantic_params v l f rt))];
      finish_route.
  - rewrite perform_exact_search_log. unfold answer.
    destruct (milvus_search (exact_params q l f rt)); finish_route.
Qed.

(** ** The claims *)

(** C4: for every dispatched query, on the GET and the POST dispatcher,
    the embedding provider is called exactly once when the mode lower-cases
    to [hybrid] or [semantic], whatever the limit and whatever the
    collaborators answer, and never in the [bm25] and [exact] modes (nor
    for a rejected mode). *)
Theorem embedding_calls_per_mode :
  (forall q s l rt tf,
     count_embeds (snd (run (unified_search q s l rt tf))) =
     if String.eqb (lower s) "hybrid" || String.eqb (lower s) "semantic"
     then 1%nat else 0%nat) /\
  (forall req,
     count_embeds (snd (run (unified_search_post req))) =
     if String.eqb (lower (SearchRequest.search_type req)) "hybrid"
        || String.eqb (lower (SearchRequest.search_type req)) "semantic"
     then 1%nat else 0%nat).
Proof.
  unfold run. split.
  - intros q s l rt tf. rewrite unified_search_eq.
    destruct (existsb (String.eqb (lower s)) valid_types) eqn:E.
    + rewrite search_failed_snd. apply route_count_embeds.
    + apply invalid_cases in E as (-> & _ & -> & _). reflexivity.
  - intros req. rewrite unified_search_post_eq.
    destruct (existsb (String.eqb (lower (SearchRequest.search_type req))) valid_types) eqn:E.
    + rewrite search_failed_snd. apply route_count_embeds.
    + apply invalid_cases in E as (-> & _ & -> & _). reflexivity.
Qed.

Lemma format_results_count b q st :
  SearchResponse.results (format_results b q st) = format_batches b /\
  SearchResponse.count (format_results b q st) =
    length (SearchResponse.results (format_results b q st)) /\
  SearchResponse.count (format_results b q st) = length (concat b).
Proof.
  simpl. repeat split. apply format_batches_length.
Qed.

(** C5: every response returned by [GET /search] or [POST /search], in
    every mode, has [count] equal to the length of its [results], which are
    the backend batches flattened. *)
Theorem count_is_flattened_length :
  (forall p r log,
     run (get_search p) = (inr (Some r), log) ->
     exists b, SearchResponse.results r = format_batches b /\
       SearchResponse.count r = length (SearchResponse.results r) /\
       SearchResponse.count r = length (concat b)) /\
  (forall req r log,
     run (post_search req) = (inr (Some r), log) ->
     exists b, SearchResponse.results r = format_batches b /\
       SearchResponse.count r = length (SearchResponse.results r) /\
       SearchResponse.count r = length (concat b)).
Proof.
  unfold run. split.
  - intros p r log H. unfold get_search in H.
    destruct (get_validation_errors p); [| discriminate].
    rewrite unified_search_eq in H.
    destruct (existsb _ valid_types); [| discriminate].
    apply search_failed_inr, route_inr in H as [b ->].
    exists b. apply format_results_count.
  - intros req r log H. unfold post_search in H.
    destruct (post_validation_errors req); [| discriminate].
    rewrite unified_search_post_eq in H.
    destruct (existsb _ valid_types); [| discriminate].
    apply search_failed_inr, route_inr in H as [b ->].
    exists b. apply format_results_count.
Qed.

(** C6: a [search_type] that does not lower-case to one of the four modes
    makes both dispatchers raise the 400 error naming the four modes,
    without any collaborator call; through either endpoint no collaborator
    is called. *)
Theorem invalid_mode_rejected (s : string) (Hs : ~ In (lower s) valid_types) :
  (forall q l rt tf log,
     unified_search q s l rt tf log =
     (inl (HTTPException 400 invalid_search_type_detail), log)) /\
  (forall req log, SearchRequest.search_type req = s ->
     unified_search_post req log =
     (inl (HTTPException 400 invalid_search_type_detail), log)) /\
  (forall p, SearchQueryParams.search_type p = s ->
     snd (run (get_search p)) = []) /\
  (forall req, SearchRequest.search_type req = s ->
     snd (run (post_search req)) = []) /\
  invalid_search_type_detail =
    "Invalid search_type. Must be one of: hybrid, bm25, semantic, exact".
Proof.
  assert (E : existsb (String.eqb (lower s)) valid_types = false).
  { destruct (existsb (String.eqb (lower s)) valid_types) eqn:E; [|reflexivity].
    apply existsb_valid_In in E. contradiction. }
  assert (HG : forall q l rt tf log,
     unified_search q s l rt tf log =
     (inl (HTTPException 400 invalid_search_type_detail), log)).
  { intros. rewrite unified_search_eq, E. reflexivity. }
  assert (HP : forall req log, SearchRequest.search_type req = s ->
     unified_search_post req log =
     (inl (HTTPException 400 invalid_search_type_detail), log)).
  { intros req log <-. rewrite unified_search_post_eq, E. reflexivity. }
  repeat split; auto.
  - intros p <-. unfold run, get_search.
    destruct (get_validation_errors p); [rewrite HG|]; reflexivity.
  - intros req Hr. unfold run, post_search.
    destruct (post_validation_errors req); [rewrite HP by exact Hr|]; reflexivity.
Qed.

Lemma search_failed_fst_error {A} (m : M A) log e :
  fst (search_failed m log) = inl e ->
  exists e', fst (m log) = inl e' /\
    e = match e' with
        | HTTPException _ _ => e'
        | _ => HTTPException 500 ("Search failed: " ++ str_exn e')
        end.
Proof.
  unfold search_failed, try_except, raise.
  destruct (m log) as [[e' | a] log']; simpl.
  - destruct e'; intro H; inversion H; subst; eauto.
  - discriminate.
Qed.

(** C10: a [search_type] whose lower-case form is one of the four modes
    (["HYBRID"], ["Bm25"], ...) is accepted by both dispatchers: the mode is
    dispatched (a collaborator is called), any failure is a 500 service
    error rather than the 400 rejection, and a returned response carries the
    lower-case mode name. *)
Theorem mode_case_insensitive (s : string) (Hs : In (lower s) valid_types) :
  (forall q l rt tf,
     snd (run (unified_search q s l rt tf)) <> [] /\
     fst (run (unified_search q s l rt tf)) <> inr None /\
     (forall e, fst (run (unified_search q s l rt tf)) = inl e ->
        exists d, e = HTTPException 500 d) /\
     (forall r, fst (run (unified_search q s l rt tf)) = inr (Some r) ->
        SearchResponse.search_type r = lower s)) /\
  (forall req, SearchRequest.search_type req = s ->
     snd (run (unified_search_post req)) <> [] /\
     fst (run (unified_search_post req)) <> inr None /\
     (forall e, fst (run (unified_search_post req)) = inl e ->
        exists d, e = HTTPException 500 d) /\
     (forall r, fst (run (unified_search_post req)) = inr (Some r) ->
        SearchResponse.search_type r = lower s)).
Proof.
  apply existsb_valid_In in Hs.
  assert (K : forall q l f rt,
     snd (search_failed (route (lower s) q l f rt) []) <> [] /\
     fst (search_failed (route (lower s) q l f rt) []) <> inr None /\
     (forall e, fst (search_failed (route (lower s) q l f rt) []) = inl e ->
        exists d, e = HTTPException 500 d) /\
     (forall r, fst (search_failed (route (lower s) q l f rt) []) = inr (Some r) ->
        SearchResponse.search_type r = lower s)).
  { intros q l f rt.
    destruct (route_valid (lower s) q l f rt Hs) as (H1 & H2 & H3 & H4).
    repeat split.
    - rewrite search_failed_snd. exact H1.
    - intro Hn. apply H2.
      unfold search_failed, try_except, raise in Hn.
      destruct (route (lower s) q l f rt []) as [[e | a] log'];
        [destruct e|]; simpl in *; congruence.
    - intros e He. apply search_failed_fst_error in He as [e' [He' ->]].
      destruct (H3 e' He') as [[m ->] | [d ->]]; eauto.
    - intros r Hr. apply H4.
      destruct (search_failed (route (lower s) q l f rt) []) as [res log'] eqn:Ef.
      simpl in Hr. subst res. apply search_failed_inr in Ef. rewrite Ef. reflexivity. }
  unfold run. split.
  - intros. rewrite unified_search_eq, Hs. apply K.
  - intros req <-. rewrite unified_search_post_eq, Hs. apply K.
Qed.

(** A query without a backslash is read back whole from the phrase
    literal: the escaped single quotes do not close it. *)
Lemma scan_escape_no_backslash q rest :
  contains_char bs_char q = false ->
  scan_literal (escape_query q ++ String sq_char rest) = Some (q, rest).
Proof.
  unfold escape_query.
  induction q as [| c q IH]; intro H; [reflexivity|].
  cbn [contains_char] in H. apply Bool.orb_false_iff in H as [Hc Hq].
  cbn [replace_char]. destruct (Ascii.eqb_spec c sq_char) as [-> | Hne].
  - change (((bs ++ sq) ++ replace_char sq_char (bs ++ sq) q) ++ String sq_char rest)
      with (String bs_char (String sq_char
              (replace_char sq_char (bs ++ sq) q ++ String sq_char rest))).
    cbn [scan_literal]. rewrite IH by exact Hq. reflexivity.
  - cbn [append scan_literal].
    destruct (Ascii.eqb_spec c sq_char) as [E|_]; [contradiction|].
    destruct (Ascii.eqb_spec c bs_char) as [E|_]; [subst; discriminate|].
    rewrite IH by exact Hq. reflexivity.
Qed.

(** C2: the query [\'] (a backslash, then a single quote) sent in exact
    mode produces the predicate [PHRASE_MATCH(text, '\\'')]: the
    backslash added by the escaping is itself escaped by the query's
    backslash, so the query's quote closes the literal, and ['')] is left
    outside it. *)
Theorem exact_escape_backslash_quote :
  let q := (bs ++ sq)%string in
  let req := {| SearchRequest.query := q; SearchRequest.search_type := "exact";
                SearchRequest.limit := 10; SearchRequest.return_text := true;
                SearchRequest.filter := None |} in
  snd (run (post_search req)) = [CallSearch (exact_params q 10 None true)] /\
  filter (exact_params q 10 None true) =
    Some (phrase_head ++ bs ++ bs ++ sq ++ "')") /\
  scan_literal (bs ++ bs ++ sq ++ "')") = Some (bs, "')").
Proof.
  cbv zeta. split; [| split; reflexivity].
  unfold run, post_search.
  replace (post_validation_errors _) with (@nil string) by reflexivity.
  rewrite unified_search_post_eq.
  replace (existsb _ valid_types) with true by reflexivity.
  rewrite search_failed_snd.
  replace (lower _) with "exact" by reflexivity.
  rewrite route_exact, fmap_snd.
  rewrite perform_exact_search_log. reflexivity.
Qed.

(** C1: [GET /search] declares no length bound on [query], so an empty
    query passes validation and is dispatched: in [bm25] mode Milvus is
    searched for [""], in [hybrid] mode the embedding provider is called
    on [""].  [POST /search] rejects an empty query before any call. *)
Theorem empty_query_get_not_rejected :
  (let p := {| SearchQueryParams.query := ""; SearchQueryParams.search_type := "bm25";
               SearchQueryParams.limit := 10; SearchQueryParams.return_text := true;
               SearchQueryParams.title_filter := None |} in
   snd (run (get_search p)) = [CallSearch (bm25_params "" 10 None true)]) /\
  (let p := {| SearchQueryParams.query := ""; SearchQueryParams.search_type := "hybrid";
               SearchQueryParams.limit := 10; SearchQueryParams.return_text := true;
               SearchQueryParams.title_filter := None |} in
   hd_error (snd (run (get_search p))) = Some (embed_call_of "")) /\
  (forall req, SearchRequest.query req = "" ->
     exists errs,
       run (post_search req) = (inl (RequestValidationError ("query" :: errs)), [])).
Proof.
  cbv zeta. unfold run. split; [| split].
  - unfold get_search.
    replace (get_validation_errors _) with (@nil string) by reflexivity.
    rewrite unified_search_eq.
    replace (existsb _ valid_types) with true by reflexivity.
    rewrite search_failed_snd.
    replace (lower _) with "bm25" by reflexivity.
    rewrite route_bm25, fmap_snd, perform_bm25_search_log. reflexivity.
  - unfold get_search.
    replace (get_validation_errors _) with (@nil string) by reflexivity.
    rewrite unified_search_eq.
    replace (existsb _ valid_types) with true by reflexivity.
    rewrite search_failed_snd.
    replace (lower _) with "hybrid" by reflexivity.
    rewrite route_hybrid, fmap_snd, perform_hybrid_search_log.
    cbn [SearchQueryParams.query].
    destruct (embed_content "") as [m | [| v vs]]; reflexivity.
  - intros req Hq. unfold post_search, post_validation_errors.
    rewrite Hq. simpl. eexists. reflexivity.
Qed.

(** C3 fails at the empty title: [if filter_obj.title:] treats [""] as
    unset, so no expression [title == ""] is produced. *)
Lemma filter_empty_title_counterexample :
  ~ (forall X : string,
       build_filter_expression (Some {| SearchFilter.title := Some X |}) =
       Some ("title == " ++ dq ++ X ++ dq)).
Proof.
  intro H. specialize (H EmptyString). discriminate H.
Qed.

(** With no expression, the routing of a mode other than [exact] sends no
    filter clause. *)
Lemma route_no_filter x q l rt :
  x <> "exact" ->
  Forall (fun c => call_filter_clauses c = []) (snd (route x q l None rt [])).
Proof.
  intro Hx. rewrite route_snd.
  destruct (String.eqb_spec x "hybrid") as [->|_].
  { rewrite perform_hybrid_search_log.
    destruct (embed_content q) as [m | [| v vs]]; repeat constructor. }
  destruct (String.eqb_spec x "bm25") as [->|_].
  { rewrite perform_bm25_search_log. repeat constructor. }
  destruct (String.eqb_spec x "semantic") as [->|_].
  { rewrite perform_semantic_search_log.
    destruct (embed_content q) as [m | [| v vs]]; repeat constructor. }
  destruct (String.eqb_spec x "exact") as [->|_]; [contradiction|].
  constructor.
Qed.

Lemma route_exact_no_filter q l rt :
  map call_filter_clauses (snd (route "exact" q l None rt [])) = [[phrase_filter q]].
Proof.
  rewrite route_exact, fmap_snd, perform_exact_search_log. reflexivity.
Qed.

Lemma dispatch_no_filter x q l f rt :
  f = None ->
  (lower x <> "exact" ->
   Forall (fun c => call_filter_clauses c = [])
     (snd (if existsb (String.eqb (lower x)) valid_types
           then search_failed (route (lower x) q l f rt) []
           else (inl (HTTPException 400 invalid_search_type_detail), [])))) /\
  (lower x = "exact" ->
   map call_filter_clauses
     (snd (if existsb (String.eqb (lower x)) valid_types
           then search_failed (route (lower x) q l f rt) []
           else (inl (HTTPException 400 invalid_search_type_detail), [])))
   = [[phrase_filter q]]).
Proof.
  intros ->. split.
  - intro Hx. destruct (existsb _ valid_types); [| constructor].
    rewrite search_failed_snd. apply route_no_filter, Hx.
  - intro Hx. rewrite Hx. simpl existsb. cbv match.
    rewrite search_failed_snd. apply route_exact_no_filter.
Qed.

(** C3, as the code has it: a title that is a non-empty string [X]
    compiles to [title == "X"], on both endpoints; an absent filter, an
    absent title and an empty title compile to no expression.  With no
    expression, no request of the [hybrid], [bm25] or [semantic] modes
    carries a filter clause ([filter] or [expr]), and the [exact] request
    carries the bare [PHRASE_MATCH] predicate alone. *)
Theorem filter_compilation :
  (forall X, X <> EmptyString ->
     build_filter_expression (Some {| SearchFilter.title := Some X |}) =
       Some ("title == " ++ dq ++ X ++ dq) /\
     title_filter_expr (Some X) = Some ("title == " ++ dq ++ X ++ dq)) /\
  build_filter_expression None = None /\
  build_filter_expression (Some {| SearchFilter.title := None |}) = None /\
  build_filter_expression (Some {| SearchFilter.title := Some EmptyString |}) = None /\
  title_filter_expr None = None /\
  title_filter_expr (Some EmptyString) = None /\
  (forall req, build_filter_expression (SearchRequest.filter req) = None ->
     lower (SearchRequest.search_type req) <> "exact" ->
     Forall (fun c => call_filter_clauses c = []) (snd (run (unified_search_post req)))) /\
  (forall req, build_filter_expression (SearchRequest.filter req) = None ->
     lower (SearchRequest.search_type req) = "exact" ->
     map call_filter_clauses (snd (run (unified_search_post req))) =
       [[phrase_filter (SearchRequest.query req)]]) /\
  (forall q s l rt tf, title_filter_expr tf = None -> lower s <> "exact" ->
     Forall (fun c => call_filter_clauses c = []) (snd (run (unified_search q s l rt tf)))) /\
  (forall q s l rt tf, title_filter_expr tf = None -> lower s = "exact" ->
     map call_filter_clauses (snd (run (unified_search q s l rt tf))) = [[phrase_filter q]]).
Proof.
  unfold run. repeat split.
  - unfold build_filter_expression. apply String.eqb_neq in H. simpl. rewrite H.
    reflexivity.
  - unfold title_filter_expr. apply String.eqb_neq in H. rewrite H. reflexivity.
  - intros req Hf Hx. rewrite unified_search_post_eq.
    apply (dispatch_no_filter _ _ _ _ _ Hf), Hx.
  - intros req Hf Hx. rewrite unified_search_post_eq.
    apply (dispatch_no_filter _ _ _ _ _ Hf), Hx.
  - intros q s l rt tf Hf Hx. rewrite unified_search_eq.
    apply (dispatch_no_filter _ _ _ _ _ Hf), Hx.
  - intros q s l rt tf Hf Hx. rewrite unified_search_eq.
    apply (dispatch_no_filter _ _ _ _ _ Hf), Hx.
Qed.

Ltac fields_ok :=
  simpl;
  repeat (apply Forall_cons; [first [left; reflexivity | right; reflexivity] |]);
  apply Forall_nil.

(** Every Milvus call of the routing requests [output_fields_for rt]. *)
Lemma route_output_fields x q l f rt :
  Forall (fun c => call_output_fields c = None \/
                   call_output_fields c = Some (output_fields_for rt))
    (snd (route x q l f rt [])).
Proof.
  rewrite route_snd.
  destruct (String.eqb x "hybrid").
  { rewrite perform_hybrid_search_log.
    destruct (embed_content q) as [m | [| v vs]]; fields_ok. }
  destruct (String.eqb x "bm25").
  { rewrite perform_bm25_search_log. fields_ok. }
  destruct (String.eqb x "semantic").
  { rewrite perform_semantic_search_log.
    destruct (embed_content q) as [m | [| v vs]]; fields_ok. }
  destruct (String.eqb x "exact").
  { rewrite perform_exact_search_log. fields_ok. }
  constructor.
Qed.

Lemma dispatch_output_fields x q l f rt :
  Forall (fun c => call_output_fields c = None \/
                   call_output_fields c = Some (output_fields_for rt))
    (snd (if existsb (String.eqb (lower x)) valid_types
          then search_failed (route (lower x) q l f rt) []
          else (inl (HTTPException 400 invalid_search_type_detail), []))).
Proof.
  destruct (existsb _ valid_types); [| constructor].
  rewrite search_failed_snd. apply route_output_fields.
Qed.

Section BackendContract.

(** Milvus returns in a hit's entity only fields that were requested. *)
Hypothesis search_honours_fields :
  forall p b, milvus_search p = inr b ->
  Forall (Forall (hit_within (output_fields p))) b.
Hypothesis hybrid_honours_fields :
  forall p b, milvus_hybrid_search p = inr b ->
  Forall (Forall (hit_within (hybrid_output_fields p))) b.

Lemma route_inr_fields x q l f rt r log' :
  route x q l f rt [] = (inr (Some r), log') ->
  exists b, r = format_results b q x /\
    Forall (Forall (hit_within (output_fields_for rt))) b.
Proof.
  unfold route.
  destruct (String.eqb_spec x "hybrid") as [->|_].
  { intro H. apply fmap_inr in H as [a [H Ha]]. injection Ha as <-.
    rewrite perform_hybrid_search_log in H.
    destruct (embed_content q) as [m | [| v vs]]; try discriminate.
    unfold answer in H.
    destruct (milvus_hybrid_search (hybrid_params_of q v l f rt)) eqn:E;
      inversion H; subst.
    exists b. split; [reflexivity|]. apply hybrid_honours_fields in E. exact E. }
  destruct (String.eqb_spec x "bm25") as [->|_].
  { intro H. apply fmap_inr in H as [a [H Ha]]. injection Ha as <-.
    rewrite perform_bm25_search_log in H. unfold answer in H.
    destruct (milvus_search (bm25_params q l f rt)) eqn:E; inversion H; subst.
    exists b. split; [reflexivity|]. apply search_honours_fields in E. exact E. }
  destruct (String.eqb_spec x "semantic") as [->|_].
  { intro H. apply fmap_inr in H as [a [H Ha]]. injection Ha as <-.
    rewrite perform_semantic_search_log in H.
    destruct (embed_content q) as [m | [| v vs]]; try discriminate.
    unfold answer in H.
    destruct (milvus_search (semantic_params v l f rt)) eqn:E; inversion H; subst.
    exists b. split; [reflexivity|]. apply search_honours_fields in E. exact E. }
  destruct (String.eqb_spec x "exact") as [->|_].
  { intro H. apply fmap_inr in H as [a [H Ha]]. injection Ha as <-.
    rewrite perform_exact_search_log in H. unfold answer in H.
    destruct (milvus_search (exact_params q l f rt)) eqn:E; inversion H; subst.
    exists b. split; [reflexivity|]. apply search_honours_fields in E. exact E. }
  unfold ret. discriminate.
Qed.

End BackendContract.

Lemma format_batches_no_fields b :
  Forall (Forall (hit_within [])) b ->
  Forall (fun sr => SearchResult.entity sr = []) (format_batches b).
Proof.
  induction b as [| bl b IH]; intro H; [constructor|].
  inversion H as [| ? ? Hbl Hb]; subst. simpl.
  apply Forall_app. split; [| apply IH, Hb].
  apply Forall_map. eapply Forall_impl; [| exact Hbl].
  intros h Hh. unfold hit_within in Hh. unfold format_hit. simpl.
  destruct (hit_get_entity h) as [e|]; [| reflexivity].
  destruct e as [| kv e]; [reflexivity|].
  inversion Hh as [| ? ? Hkv]; subst. destruct Hkv.
Qed.

Lemma dispatch_no_text (Hs : forall p b, milvus_search p = inr b ->
                          Forall (Forall (hit_within (output_fields p))) b)
    (Hh : forall p b, milvus_hybrid_search p = inr b ->
          Forall (Forall (hit_within (hybrid_output_fields p))) b)
    x q l f r :
  fst (if existsb (String.eqb (lower x)) valid_types
       then search_failed (route (lower x) q l f false) []
       else (inl (HTTPException 400 invalid_search_type_detail), [])) = inr (Some r) ->
  Forall (fun sr => SearchResult.entity sr = []) (SearchResponse.results r).
Proof.
  destruct (existsb _ valid_types); [| discriminate].
  intro H.
  destruct (search_failed (route (lower x) q l f false) []) as [res log'] eqn:E.
  simpl in H. subst res.
  apply search_failed_inr in E.
  apply (route_inr_fields Hs Hh) in E as [b [-> Hb]].
  apply format_batches_no_fields, Hb.
Qed.

(** C7: every Milvus call requests [output_fields_for return_text], which
    is [[]] for [return_text = false] and [['text']] for [true], in every
    mode and on both dispatchers.  Consequently, with a Milvus that only
    returns requested fields, every result of a request with
    [return_text = false] has an empty entity map. *)
Theorem return_text_output_fields :
  output_fields_for false = [] /\
  output_fields_for true = ["text"] /\
  (forall q s l rt tf,
     Forall (fun c => call_output_fields c = None \/
                      call_output_fields c = Some (output_fields_for rt))
       (snd (run (unified_search q s l rt tf)))) /\
  (forall req,
     Forall (fun c => call_output_fields c = None \/
                      call_output_fields c =
                        Some (output_fields_for (SearchRequest.return_text req)))
       (snd (run (unified_search_post req)))) /\
  ((forall p b, milvus_search p = inr b ->
      Forall (Forall (hit_within (output_fields p))) b) ->
   (forall p b, milvus_hybrid_search p = inr b ->
      Forall (Forall (hit_within (hybrid_output_fields p))) b) ->
   (forall q s l tf r,
      fst (run (unified_search q s l false tf)) = inr (Some r) ->
      Forall (fun sr => SearchResult.entity sr = []) (SearchResponse.results r)) /\
   (forall req r, SearchRequest.return_text req = false ->
      fst (run (unified_search_post req)) = inr (Some r) ->
      Forall (fun sr => SearchResult.entity sr = []) (SearchResponse.results r))).
Proof.
  unfold run. split; [reflexivity|]. split; [reflexivity|]. split; [|split].
  - intros. rewrite unified_search_eq. apply dispatch_output_fields.
  - intros. rewrite unified_search_post_eq. apply dispatch_output_fields.
  - intros Hs Hh. split.
    + intros q s l tf r. rewrite unified_search_eq. apply dispatch_no_text; assumption.
    + intros req r Hrt. rewrite unified_search_post_eq, Hrt.
      apply dispatch_no_text; assumption.
Qed.

(** C9: in exact mode, on both dispatchers, the only collaborator call is
    one Milvus [search] over the sparse field whose [data] is the raw query;
    only its [filter] holds the escaped query, inside the [PHRASE_MATCH]
    predicate (alone or conjoined with the title expression). *)
Theorem exact_mode_raw_query (s : string) (Hs : lower s = "exact") :
  (forall q l rt tf,
     snd (run (unified_search q s l rt tf)) =
       [CallSearch (exact_params q l (title_filter_expr tf) rt)]) /\
  (forall req, SearchRequest.search_type req = s ->
     snd (run (unified_search_post req)) =
       [CallSearch (exact_params (SearchRequest.query req) (SearchRequest.limit req)
                      (build_filter_expression (SearchRequest.filter req))
                      (SearchRequest.return_text req))]) /\
  (forall q l f rt,
     data (exact_params q l f rt) = [DText q] /\
     anns_field (exact_params q l f rt) = "sparce_vector" /\
     (filter (exact_params q l f rt) = Some (phrase_filter q) \/
      exists f', filter (exact_params q l f rt) = Some (phrase_filter q ++ " && " ++ f'))) /\
  (forall q, phrase_filter q = phrase_head ++ escape_query q ++ "')").
Proof.
  unfold run. split; [| split; [| split]].
  - intros. rewrite unified_search_eq, Hs. simpl existsb. cbv match.
    rewrite search_failed_snd, route_exact, fmap_snd, perform_exact_search_log.
    reflexivity.
  - intros req <-. rewrite unified_search_post_eq, Hs. simpl existsb. cbv match.
    rewrite search_failed_snd, route_exact, fmap_snd, perform_exact_search_log.
    reflexivity.
  - intros q l f rt. split; [reflexivity | split; [reflexivity|]].
    unfold exact_params; cbn [filter]. unfold exact_final_filter.
    destruct (truthy_opt f); [destruct f as [f'|]|]; eauto.
  - reflexivity.
Qed.

(** *** Helpers for the further properties *)

Lemma filter_agree tf :
  build_filter_expression (Some {| SearchFilter.title := tf |}) = title_filter_expr tf.
Proof.
  destruct tf as [t|]; [| reflexivity].
  unfold build_filter_expression, title_filter_expr. simpl.
  destruct (String.eqb t EmptyString); reflexivity.
Qed.

Lemma dispatch_agree q s l rt tf log :
  unified_search q s l rt tf log =
  unified_search_post
    {| SearchRequest.query := q; SearchRequest.search_type := s;
       SearchRequest.limit := l; SearchRequest.return_text := rt;
       SearchRequest.filter := Some {| SearchFilter.title := tf |} |} log.
Proof.
  rewrite unified_search_eq, unified_search_post_eq. cbn [SearchRequest.query
    SearchRequest.search_type SearchRequest.limit SearchRequest.return_text
    SearchRequest.filter].
  rewrite filter_agree. reflexivity.
Qed.

Lemma search_failed_exception {A} (m : M A) log msg :
  fst (m log) = inl (Exception msg) ->
  fst (search_failed m log) = inl (HTTPException 500 ("Search failed: " ++ msg)).
Proof.
  unfold search_failed, try_except, raise.
  destruct (m log) as [[e | a] log']; simpl; intro H; inversion H; reflexivity.
Qed.

Ltac milvus_error_case :=
  unfold answer; simpl;
  intros Hc Ha; repeat destruct Hc as [<- | Hc]; try contradiction;
  simpl in Ha; try discriminate;
  match goal with
  | E : _ = _ |- _ => rewrite E in Ha; inversion Ha; subst; reflexivity
  end.

Lemma route_milvus_error x q l f rt c m :
  In c (snd (route x q l f rt [])) ->
  milvus_answer c = Some (inl m) ->
  fst (route x q l f rt []) = inl (Exception m).
Proof.
  unfold route.
  destruct (String.eqb x "hybrid").
  { unfold fmap, bind, ret. rewrite perform_hybrid_search_log.
    destruct (embed_content q) as [m0 | [| v vs]];
      [| | destruct (milvus_hybrid_search (hybrid_params_of q v l f rt)) eqn:E];
      milvus_error_case. }
  destruct (String.eqb x "bm25").
  { unfold fmap, bind, ret. rewrite perform_bm25_search_log.
    destruct (milvus_search (bm25_params q l f rt)) eqn:E; milvus_error_case. }
  destruct (String.eqb x "semantic").
  { unfold fmap, bind, ret. rewrite perform_semantic_search_log.
    destruct (embed_content q) as [m0 | [| v vs]];
      [| | destruct (milvus_search (semantic_params v l f rt)) eqn:E];
      milvus_error_case. }
  destruct (String.eqb x "exact").
  { unfold fmap, bind, ret. rewrite perform_exact_search_log.
    destruct (milvus_search (exact_params q l f rt)) eqn:E; milvus_error_case. }
  unfold ret. simpl. contradiction.
Qed.


Ltac route_log_cases x q :=
  rewrite route_snd;
  destruct (String.eqb x "hybrid");
  [ rewrite perform_hybrid_search_log;
    destruct (embed_content q) as [?m0 | [| ?v ?vs]] eqn:?Eq
  | destruct (String.eqb x "bm25");
    [ rewrite perform_bm25_search_log
    | destruct (String.eqb x "semantic");
      [ rewrite perform_semantic_search_log;
        destruct (embed_content q) as [?m0 | [| ?v ?vs]] eqn:?Eq
      | destruct (String.eqb x "exact");
        [ rewrite perform_exact_search_log | ] ] ] ].

Lemma route_shape x q l f rt : log_shape q (snd (route x q l f rt [])).
Proof.
  unfold log_shape. route_log_cases x q; simpl; eauto 6.
Qed.

Lemma route_limits x q l f rt :
  Forall (fun c => Forall (fun n => n = l) (call_limits c)) (snd (route x q l f rt [])).
Proof.
  route_log_cases x q; simpl; repeat constructor.
Qed.

Lemma route_vectors x q l f rt :
  Forall (fun c => Forall (fun w => exists vs, embed_content q = inr (w :: vs))
                     (call_vectors c))
    (snd (route x q l f rt [])).
Proof.
  route_log_cases x q; simpl;
    repeat first [ apply Forall_nil | apply Forall_cons | eexists; eassumption
                 | eexists; reflexivity ].
Qed.

Lemma get_search_log p :
  snd (run (get_search p)) = [] \/
  snd (run (get_search p)) =
    snd (route (lower (SearchQueryParams.search_type p)) (SearchQueryParams.query p)
           (SearchQueryParams.limit p)
           (title_filter_expr (SearchQueryParams.title_filter p))
           (SearchQueryParams.return_text p) []).
Proof.
  unfold run, get_search.
  destruct (get_validation_errors p); [| left; reflexivity].
  rewrite unified_search_eq. destruct (existsb _ valid_types); [| left; reflexivity].
  right. apply search_failed_snd.
Qed.

Lemma post_search_log req :
  snd (run (post_search req)) = [] \/
  snd (run (post_search req)) =
    snd (route (lower (SearchRequest.search_type req)) (SearchRequest.query req)
           (SearchRequest.limit req)
           (build_filter_expression (SearchRequest.filter req))
           (SearchRequest.return_text req) []).
Proof.
  unfold run, post_search.
  destruct (post_validation_errors req); [| left; reflexivity].
  rewrite unified_search_post_eq. destruct (existsb _ valid_types); [| left; reflexivity].
  right. apply search_failed_snd.
Qed.

Lemma get_search_inr p r log :
  run (get_search p) = (inr (Some r), log) ->
  route (lower (SearchQueryParams.search_type p)) (SearchQueryParams.query p)
    (SearchQueryParams.limit p) (title_filter_expr (SearchQueryParams.title_filter p))
    (SearchQueryParams.return_text p) [] = (inr (Some r), log).
Proof.
  unfold run, get_search. destruct (get_validation_errors p); [| discriminate].
  rewrite unified_search_eq. destruct (existsb _ valid_types); [| discriminate].
  apply search_failed_inr.
Qed.

Lemma post_search_inr req r log :
  run (post_search req) = (inr (Some r), log) ->
  route (lower (SearchRequest.search_type req)) (SearchRequest.query req)
    (SearchRequest.limit req) (build_filter_expression (SearchRequest.filter req))
    (SearchRequest.return_text req) [] = (inr (Some r), log).
Proof.
  unfold run, post_search. destruct (post_validation_errors req); [| discriminate].
  rewrite unified_search_post_eq. destruct (existsb _ valid_types); [| discriminate].
  apply search_failed_inr.
Qed.

Lemma route_inr_answer x q l f rt r log :
  route x q l f rt [] = (inr (Some r), log) ->
  exists c b, In c log /\ milvus_answer c = Some (inr b) /\ r = format_results b q x.
Proof.
  unfold route.
  destruct (String.eqb_spec x "hybrid") as [->|_].
  { intro H. apply fmap_inr in H as [a [H Ha]]. injection Ha as <-.
    rewrite perform_hybrid_search_log in H.
    destruct (embed_content q) as [m | [| v vs]]; try discriminate.
    unfold answer in H.
    destruct (milvus_hybrid_search (hybrid_params_of q v l f rt)) eqn:E;
      inversion H; subst.
    exists (CallHybridSearch (hybrid_params_of q v l f rt)), b.
    simpl. rewrite E. auto. }
  destruct (String.eqb_spec x "bm25") as [->|_].
  { intro H. apply fmap_inr in H as [a [H Ha]]. injection Ha as <-.
    rewrite perform_bm25_search_log in H. unfold answer in H.
    destruct (milvus_search (bm25_params q l f rt)) eqn:E; inversion H; subst.
    exists (CallSearch (bm25_params q l f rt)), b. simpl. rewrite E. auto. }
  destruct (String.eqb_spec x "semantic") as [->|_].
  { intro H. apply fmap_inr in H as [a [H Ha]]. injection Ha as <-.
    rewrite perform_semantic_search_log in H.
    destruct (embed_content q) as [m | [| v vs]]; try discriminate.
    unfold answer in H.
    destruct (milvus_search (semantic_params v l f rt)) eqn:E; inversion H; subst.
    exists (CallSearch (semantic_params v l f rt)), b. simpl. rewrite E. auto. }
  destruct (String.eqb_spec x "exact") as [->|_].
  { intro H. apply fmap_inr in H as [a [H Ha]]. injection Ha as <-.
    rewrite perform_exact_search_log in H. unfold answer in H.
    destruct (milvus_search (exact_params q l f rt)) eqn:E; inversion H; subst.
    exists (CallSearch (exact_params q l f rt)), b. simpl. rewrite E. auto. }
  unfold ret. discriminate.
Qed.

Lemma format_batches_map b : format_batches b = map format_hit (concat b).
Proof.
  induction b as [| bl b IH]; [reflexivity|]. simpl. rewrite map_app, IH. reflexivity.
Qed.

(** The errors a dispatcher raises. *)
Lemma dispatch_errors x q l f rt e :
  fst (if existsb (String.eqb x) valid_types
       then search_failed (route x q l f rt) []
       else (inl (HTTPException 400 invalid_search_type_detail), [])) = inl e ->
  e = HTTPException 400 invalid_search_type_detail \/ exists d, e = HTTPException 500 d.
Proof.
  destruct (existsb (String.eqb x) valid_types) eqn:E.
  - intro H. apply search_failed_fst_error in H as [e' [He' ->]].
    destruct (route_valid x q l f rt E) as (_ & _ & H3 & _).
    destruct (H3 e' He') as [[m ->] | [d ->]]; right; eauto.
  - simpl. intro H. injection H as <-. left. reflexivity.
Qed.

(** ** Further properties of the service *)

(** The GET dispatcher behaves exactly as the POST dispatcher on the body
    whose [filter] holds the GET [title_filter]: same result, same calls. *)
Theorem get_dispatch_is_post_dispatch q s l rt tf log :
  unified_search q s l rt tf log =
  unified_search_post
    {| SearchRequest.query := q; SearchRequest.search_type := s;
       SearchRequest.limit := l; SearchRequest.return_text := rt;
       SearchRequest.filter := Some {| SearchFilter.title := tf |} |} log.
Proof. apply dispatch_agree. Qed.

(** For a non-empty query, [GET /search] and [POST /search] with the same
    fields are the same computation, validation included. *)
Theorem get_endpoint_is_post_endpoint (p : SearchQueryParams.t)
    (Hq : SearchQueryParams.query p <> EmptyString) (log : list call) :
  get_search p log = post_search (request_of_params p) log.
Proof.
  unfold get_search, post_search.
  replace (post_validation_errors (request_of_params p)) with (get_validation_errors p).
  - destruct (get_validation_errors p); [| reflexivity]. apply dispatch_agree.
  - unfold post_validation_errors, get_validation_errors, request_of_params.
    cbn [SearchRequest.query SearchRequest.limit].
    destruct (SearchQueryParams.query p); [contradiction | reflexivity].
Qed.

(** A limit outside 1..100 is refused by both endpoints with a validation
    error on [limit], before any collaborator call. *)
Theorem limit_out_of_range_rejected :
  (forall p, (SearchQueryParams.limit p < 1 \/ 100 < SearchQueryParams.limit p)%Z ->
     run (get_search p) = (inl (RequestValidationError ["limit"]), [])) /\
  (forall req, (SearchRequest.limit req < 1 \/ 100 < SearchRequest.limit req)%Z ->
     exists errs, run (post_search req) = (inl (RequestValidationError errs), []) /\
       In "limit" errs).
Proof.
  split.
  - intros p Hl. unfold run, get_search, get_validation_errors.
    replace ((1 <=? SearchQueryParams.limit p)%Z && (SearchQueryParams.limit p <=? 100)%Z)
      with false by (symmetry; apply Bool.andb_false_iff; lia).
    reflexivity.
  - intros req Hl. unfold run, post_search, post_validation_errors.
    replace ((1 <=? SearchRequest.limit req)%Z && (SearchRequest.limit req <=? 100)%Z)
      with false by (symmetry; apply Bool.andb_false_iff; lia).
    destruct (Nat.ltb _ 1); simpl; eexists; split; try reflexivity; simpl; auto.
Qed.

(** In [hybrid] and [semantic] mode, a failing embedding call (an exception
    or an answer with no embedding) is surfaced as the 500 error of
    [get_embedding], unchanged by the dispatcher, and no Milvus call is
    made. *)
Theorem embedding_failure_surfaced (req : SearchRequest.t) (m : string)
    (Hs : lower (SearchRequest.search_type req) = "hybrid" \/
          lower (SearchRequest.search_type req) = "semantic")
    (He : embed_content (SearchRequest.query req) = inl m \/
          (embed_content (SearchRequest.query req) = inr [] /\
           m = "list index out of range")) :
  run (unified_search_post req) =
  (inl (HTTPException 500 ("Error generating embedding: " ++ m)),
   [embed_call_of (SearchRequest.query req)]).
Proof.
  unfold run. rewrite unified_search_post_eq.
  destruct Hs as [Hs | Hs]; rewrite Hs; simpl existsb; cbv match;
    [rewrite route_hybrid | rewrite route_semantic];
    unfold search_failed, try_except, fmap, bind, ret;
    [rewrite perform_hybrid_search_log | rewrite perform_semantic_search_log];
    destruct He as [He | [He ->]]; rewrite He; reflexivity.
Qed.

(** When the Milvus call a request makes fails with message [m], both
    dispatchers raise the 500 error ["Search failed: " ++ m]: no response,
    partial or not, is returned. *)
Theorem milvus_failure_surfaced :
  (forall req c m,
     In c (snd (run (unified_search_post req))) ->
     milvus_answer c = Some (inl m) ->
     fst (run (unified_search_post req)) =
       inl (HTTPException 500 ("Search failed: " ++ m))) /\
  (forall q s l rt tf c m,
     In c (snd (run (unified_search q s l rt tf))) ->
     milvus_answer c = Some (inl m) ->
     fst (run (unified_search q s l rt tf)) =
       inl (HTTPException 500 ("Search failed: " ++ m))).
Proof.
  unfold run. split.
  - intros req c m Hc Ha. rewrite unified_search_post_eq in *.
    destruct (existsb _ valid_types); [| simpl in Hc; contradiction].
    rewrite search_failed_snd in Hc.
    apply search_failed_exception, (route_milvus_error _ _ _ _ _ c); assumption.
  - intros q s l rt tf c m Hc Ha. rewrite unified_search_eq in *.
    destruct (existsb _ valid_types); [| simpl in Hc; contradiction].
    rewrite search_failed_snd in Hc.
    apply search_failed_exception, (route_milvus_error _ _ _ _ _ c); assumption.
Qed.

(** Every request, through either endpoint, makes at most one call to the
    embedding provider (on the raw query) and at most one Milvus call, the
    embedding call coming first. *)
Theorem request_call_shape :
  (forall p, log_shape (SearchQueryParams.query p) (snd (run (get_search p)))) /\
  (forall req, log_shape (SearchRequest.query req) (snd (run (post_search req)))).
Proof.
  split.
  - intro p. destruct (get_search_log p) as [-> | ->]; [left; reflexivity | apply route_shape].
  - intro req. destruct (post_search_log req) as [-> | ->];
      [left; reflexivity | apply route_shape].
Qed.

(** The request's limit reaches Milvus unchanged: every limit of every
    Milvus call (the top-level one and both sub-requests of a hybrid
    search) is the request's limit. *)
Theorem limit_passed_through :
  (forall p, Forall (fun c => Forall (fun n => n = SearchQueryParams.limit p) (call_limits c))
               (snd (run (get_search p)))) /\
  (forall req, Forall (fun c => Forall (fun n => n = SearchRequest.limit req) (call_limits c))
               (snd (run (post_search req)))).
Proof.
  split.
  - intro p. destruct (get_search_log p) as [-> | ->]; [constructor | apply route_limits].
  - intro req. destruct (post_search_log req) as [-> | ->]; [constructor | apply route_limits].
Qed.

(** Every dense vector sent to Milvus is the first embedding the provider
    returned for the raw query; further embeddings of the answer are never
    used. *)
Theorem dense_vector_is_first_embedding :
  (forall p, Forall (fun c => Forall (fun w =>
       exists vs, embed_content (SearchQueryParams.query p) = inr (w :: vs))
     (call_vectors c)) (snd (run (get_search p)))) /\
  (forall req, Forall (fun c => Forall (fun w =>
       exists vs, embed_content (SearchRequest.query req) = inr (w :: vs))
     (call_vectors c)) (snd (run (post_search req)))).
Proof.
  split.
  - intro p. destruct (get_search_log p) as [-> | ->]; [constructor | apply route_vectors].
  - intro req. destruct (post_search_log req) as [-> | ->];
      [constructor | apply route_vectors].
Qed.

(** A response returned by either endpoint echoes the raw query, and its
    results are exactly the hits of the batches Milvus answered to the
    request's call, in Milvus' order, each normalised by [format_results]
    (no hit dropped, merged or reordered). *)
Theorem response_is_normalised_answer :
  (forall p r log, run (get_search p) = (inr (Some r), log) ->
     SearchResponse.query r = SearchQueryParams.query p /\
     exists c b, In c log /\ milvus_answer c = Some (inr b) /\
       SearchResponse.results r = map format_hit (concat b)) /\
  (forall req r log, run (post_search req) = (inr (Some r), log) ->
     SearchResponse.query r = SearchRequest.query req /\
     exists c b, In c log /\ milvus_answer c = Some (inr b) /\
       SearchResponse.results r = map format_hit (concat b)).
Proof.
  split.
  - intros p r log H. apply get_search_inr, route_inr_answer in H
      as (c & b & Hc & Ha & ->).
    split; [reflexivity|]. exists c, b. split; [exact Hc|]. split; [exact Ha|].
    apply format_batches_map.
  - intros req r log H. apply post_search_inr, route_inr_answer in H
      as (c & b & Hc & Ha & ->).
    split; [reflexivity|]. exists c, b. split; [exact Hc|]. split; [exact Ha|].
    apply format_batches_map.
Qed.

(** Both endpoints only ever fail with a request validation error (422),
    the 400 rejection of the mode, or a 500 [HTTPException]: no other
    exception escapes. *)
Theorem endpoint_errors_are_http :
  (forall p e, fst (run (get_search p)) = inl e ->
     (exists errs, e = RequestValidationError errs) \/
     e = HTTPException 400 invalid_search_type_detail \/
     exists d, e = HTTPException 500 d) /\
  (forall req e, fst (run (post_search req)) = inl e ->
     (exists errs, e = RequestValidationError errs) \/
     e = HTTPException 400 invalid_search_type_detail \/
     exists d, e = HTTPException 500 d).
Proof.
  unfold run. split.
  - intros p e. unfold get_search.
    destruct (get_validation_errors p) as [| err errs].
    + rewrite unified_search_eq. intro H. right. eapply dispatch_errors, H.
    + simpl. intro H. injection H as <-. left. eauto.
  - intros req e. unfold post_search.
    destruct (post_validation_errors req) as [| err errs].
    + rewrite unified_search_post_eq. intro H. right. eapply dispatch_errors, H.
    + simpl. intro H. injection H as <-. left. eauto.
Qed.

(** In exact mode with a non-empty title [X], the one Milvus call carries
    the phrase predicate conjoined, in that order, with [title == "X"]. *)
Theorem exact_mode_with_title (req : SearchRequest.t) (X : string)
    (Hs : lower (SearchRequest.search_type req) = "exact")
    (Hf : SearchRequest.filter req = Some {| SearchFilter.title := Some X |})
    (HX : X <> EmptyString) :
  map call_filter_clauses (snd (run (unified_search_post req))) =
  [[phrase_filter (SearchRequest.query req) ++ " && " ++
    "title == " ++ dq ++ X ++ dq]].
Proof.
  unfold run. rewrite unified_search_post_eq, Hs. simpl existsb. cbv match.
  rewrite search_failed_snd, route_exact, fmap_snd, perform_exact_search_log.
  rewrite Hf. unfold build_filter_expression. cbn [SearchFilter.title].
  apply String.eqb_neq in HX. rewrite HX. reflexivity.
Qed.


End Service.

Lemma format_batches_In h b :
  In h (concat b) -> In (format_hit h) (format_batches b).
Proof.
  induction b as [| bl b IH]; simpl; [tauto|].
  rewrite !in_app_iff. intros [H | H].
  - left. apply in_map, H.
  - right. apply IH, H.
Qed.

(** C8: a hit without a [distance] key is normalised, like any other, into
    a result whose distance is [0.0]; [format_results] is total. *)
Theorem missing_distance_defaults_to_zero (b : batches) (h : Hit) (q st : string) :
  In h (concat b) ->
  hit_get_distance h = None ->
  In {| SearchResult.id := hit_get_id h;
        SearchResult.distance := 0%Q;
        SearchResult.entity :=
          match hit_get_entity h with Some e => e | None => [] end |}
     (SearchResponse.results (format_results b q st)).
Proof.
  intros Hin Hd.
  replace {| SearchResult.id := _; SearchResult.distance := _;
             SearchResult.entity := _ |} with (format_hit h)
    by (unfold format_hit; rewrite Hd; reflexivity).
  apply format_batches_In, Hin.
Qed.

(** ** Evaluations and witnesses *)

Example lower_HYBRID : lower "HYBRID" = "hybrid".
Proof. reflexivity. Qed.

Example lower_Bm25 : lower "Bm25" = "bm25".
Proof. reflexivity. Qed.

(** The end-to-end scenario of the spec: query ["test phrase"], exact mode,
    title ["Chapter1"]. *)
Example spec_example_exact :
  exact_final_filter "test phrase"
    (build_filter_expression (Some {| SearchFilter.title := Some "Chapter1" |}))
  = "PHRASE_MATCH(text, 'test phrase') && title == " ++ dq ++ "Chapter1" ++ dq.
Proof. reflexivity. Qed.

Example scan_its :
  scan_literal (escape_query "it's here" ++ "')") = Some ("it's here", ")").
Proof. reflexivity. Qed.

Lemma empty_query_get_not_rejected_witness :
  SearchRequest.query (demo_request "semantic" "") = "" /\
  exists errs,
    run (post_search "c" demo_embed demo_search demo_hybrid (demo_request "semantic" ""))
    = (inl (RequestValidationError ("query" :: errs)), []).
Proof.
  split; [reflexivity|].
  apply (proj2 (proj2 (empty_query_get_not_rejected "c" demo_embed demo_search demo_hybrid))).
  reflexivity.
Defined.

Lemma filter_compilation_witness :
  "Chapter1" <> EmptyString /\
  build_filter_expression (Some {| SearchFilter.title := Some "Chapter1" |}) =
    Some ("title == " ++ dq ++ "Chapter1" ++ dq) /\
  build_filter_expression (SearchRequest.filter (demo_request "Exact" "q")) = None /\
  lower (SearchRequest.search_type (demo_request "Exact" "q")) = "exact" /\
  map call_filter_clauses
    (snd (run (unified_search_post "c" demo_embed demo_search demo_hybrid
                 (demo_request "Exact" "q")))) = [[phrase_filter "q"]].
Proof.
  assert (HX : "Chapter1" <> EmptyString) by discriminate.
  pose proof (filter_compilation "c" demo_embed demo_search demo_hybrid)
    as (H1 & _ & _ & _ & _ & _ & _ & H8 & _ & _).
  split; [exact HX|]. split; [exact (proj1 (H1 _ HX))|].
  split; [reflexivity|]. split; [reflexivity|].
  apply H8; reflexivity.
Defined.

Lemma count_is_flattened_length_witness :
  exists r log,
    run (get_search "c" demo_embed demo_search demo_hybrid (demo_params "bm25" "q"))
      = (inr (Some r), log) /\
    exists b, SearchResponse.results r = format_batches b /\
      SearchResponse.count r = length (SearchResponse.results r) /\
      SearchResponse.count r = length (concat b).
Proof.
  eexists. eexists. split.
  - vm_compute. reflexivity.
  - eapply (proj1 (count_is_flattened_length "c" demo_embed demo_search demo_hybrid) (demo_params "bm25" "q")).
    vm_compute. reflexivity.
Defined.

Lemma invalid_mode_rejected_witness :
  ~ In (lower "foo") valid_types /\
  snd (run (post_search "c" demo_embed demo_search demo_hybrid (demo_request "foo" "q")))
    = [].
Proof.
  assert (H : ~ In (lower "foo") valid_types)
    by (vm_compute; intuition discriminate).
  split; [exact H|].
  apply (invalid_mode_rejected "c" demo_embed demo_search demo_hybrid "foo" H).
  reflexivity.
Defined.

Lemma return_text_output_fields_witness :
  Forall (fun sr => SearchResult.entity sr = [])
    (SearchResponse.results
       (format_results [[demo_hit]] "q" "hybrid")).
Proof.
  assert (Hs : forall p b, demo_search p = inr b ->
            Forall (Forall (hit_within (output_fields p))) b).
  { intros p b H. injection H as <-. repeat constructor. }
  assert (Hh : forall p b, demo_hybrid p = inr b ->
            Forall (Forall (hit_within (hybrid_output_fields p))) b).
  { intros p b H. injection H as <-. repeat constructor. }
  apply (proj1 (proj2 (proj2 (proj2 (proj2 (return_text_output_fields
    "c" demo_embed demo_search demo_hybrid))))
    Hs Hh) "q" "HYBRID" 10%Z None).
  vm_compute. reflexivity.
Defined.

Lemma missing_distance_defaults_to_zero_witness :
  In demo_hit (concat [[demo_hit]]) /\
  hit_get_distance demo_hit = None /\
  In {| SearchResult.id := Some (IdInt 7); SearchResult.distance := 0%Q;
        SearchResult.entity := [] |}
     (SearchResponse.results (format_results [[demo_hit]] "q" "bm25")).
Proof.
  assert (Hin : In demo_hit (concat [[demo_hit]])) by (simpl; left; reflexivity).
  assert (Hd : hit_get_distance demo_hit = None) by reflexivity.
  split; [exact Hin|]. split; [exact Hd|].
  exact (missing_distance_defaults_to_zero [[demo_hit]] demo_hit "q" "bm25" Hin Hd).
Defined.

Lemma exact_mode_raw_query_witness :
  lower "EXACT" = "exact" /\
  snd (run (unified_search "c" demo_embed demo_search demo_hybrid "it's" "EXACT" 10%Z true None)) =
    [CallSearch (exact_params "c" "it's" 10%Z None true)].
Proof.
  assert (H : lower "EXACT" = "exact") by reflexivity.
  split; [exact H|].
  exact (proj1 (exact_mode_raw_query "c" demo_embed demo_search demo_hybrid "EXACT" H) "it's" 10%Z true None).
Defined.

Lemma mode_case_insensitive_witness :
  In (lower "HYBRID") valid_types /\
  (forall r, fst (run (unified_search "c" demo_embed demo_search demo_hybrid
                         "q" "HYBRID" 10%Z true None)) = inr (Some r) ->
     SearchResponse.search_type r = "hybrid").
Proof.
  assert (H : In (lower "HYBRID") valid_types) by (vm_compute; auto).
  split; [exact H|].
  exact (proj2 (proj2 (proj2 (proj1 (mode_case_insensitive "c" demo_embed demo_search demo_hybrid "HYBRID" H) "q" 10%Z true None)))).
Defined.


(** ** Start-up configuration *)




Lemma get_endpoint_is_post_endpoint_witness :
  SearchQueryParams.query (demo_params "hybrid" "q") <> EmptyString /\
  get_search "c" demo_embed demo_search demo_hybrid (demo_params "hybrid" "q") [] =
  post_search "c" demo_embed demo_search demo_hybrid
    (request_of_params (demo_params "hybrid" "q")) [].
Proof.
  assert (H : SearchQueryParams.query (demo_params "hybrid" "q") <> EmptyString)
    by (simpl; discriminate).
  split; [exact H|].
  exact (get_endpoint_is_post_endpoint "c" demo_embed demo_search demo_hybrid
           (demo_params "hybrid" "q") H []).
Defined.

Lemma limit_out_of_range_rejected_witness :
  run (get_search "c" demo_embed demo_search demo_hybrid
         {| SearchQueryParams.query := "q"; SearchQueryParams.search_type := "bm25";
            SearchQueryParams.limit := 0; SearchQueryParams.return_text := true;
            SearchQueryParams.title_filter := None |})
  = (inl (RequestValidationError ["limit"]), []) /\
  exists errs,
    run (post_search "c" demo_embed demo_search demo_hybrid
           {| SearchRequest.query := "q"; SearchRequest.search_type := "bm25";
              SearchRequest.limit := 101; SearchRequest.return_text := true;
              SearchRequest.filter := None |})
    = (inl (RequestValidationError errs), []) /\ In "limit" errs.
Proof.
  split.
  - apply (proj1 (limit_out_of_range_rejected "c" demo_embed demo_search demo_hybrid)).
    simpl. lia.
  - apply (proj2 (limit_out_of_range_rejected "c" demo_embed demo_search demo_hybrid)).
    simpl. lia.
Defined.

Lemma embedding_failure_surfaced_witness :
  run (unified_search_post "c" failing_embed demo_search demo_hybrid
         (demo_request "Semantic" "q")) =
  (inl (HTTPException 500 ("Error generating embedding: " ++ "quota exceeded")),
   [embed_call_of "q"]).
Proof.
  apply (embedding_failure_surfaced "c" failing_embed demo_search demo_hybrid
           (demo_request "Semantic" "q") "quota exceeded").
  - right. reflexivity.
  - left. reflexivity.
Defined.

Lemma milvus_failure_surfaced_witness :
  fst (run (unified_search_post "c" demo_embed failing_search demo_hybrid
              (demo_request "bm25" "q"))) =
  inl (HTTPException 500 ("Search failed: " ++ "timeout")).
Proof.
  apply (proj1 (milvus_failure_surfaced "c" demo_embed failing_search demo_hybrid)
           (demo_request "bm25" "q") (CallSearch (bm25_params "c" "q" 10%Z None false))).
  - vm_compute. left. reflexivity.
  - reflexivity.
Defined.

Lemma response_is_normalised_answer_witness :
  SearchResponse.query (format_results [[demo_hit]] "q" "bm25") = "q" /\
  exists c b, In c [CallSearch (bm25_params "c" "q" 10%Z None false)] /\
    milvus_answer demo_search demo_hybrid c = Some (inr b) /\
    SearchResponse.results (format_results [[demo_hit]] "q" "bm25") =
      map format_hit (concat b).
Proof.
  apply (proj2 (response_is_normalised_answer "c" demo_embed demo_search demo_hybrid)
           (demo_request "bm25" "q")).
  vm_compute. reflexivity.
Defined.

Lemma endpoint_errors_are_http_witness :
  (exists errs, HTTPException 400 invalid_search_type_detail = RequestValidationError errs) \/
  HTTPException 400 invalid_search_type_detail = HTTPException 400 invalid_search_type_detail \/
  exists d, HTTPException 400 invalid_search_type_detail = HTTPException 500 d.
Proof.
  apply (proj2 (endpoint_errors_are_http "c" demo_embed demo_search demo_hybrid)
           (demo_request "foo" "q")).
  vm_compute. reflexivity.
Defined.

Lemma exact_mode_with_title_witness :
  map call_filter_clauses
    (snd (run (unified_search_post "c" demo_embed demo_search demo_hybrid
       {| SearchRequest.query := "emptiness"; SearchRequest.search_type := "Exact";
          SearchRequest.limit := 10%Z; SearchRequest.return_text := true;
          SearchRequest.filter := Some {| SearchFilter.title := Some "Heart Sutra" |} |}))) =
  [[phrase_filter "emptiness" ++ " && " ++ "title == " ++ dq ++ "Heart Sutra" ++ dq]].
Proof.
  apply (exact_mode_with_title "c" demo_embed demo_search demo_hybrid
    {| SearchRequest.query := "emptiness"; SearchRequest.search_type := "Exact";
       SearchRequest.limit := 10%Z; SearchRequest.return_text := true;
       SearchRequest.filter := Some {| SearchFilter.title := Some "Heart Sutra" |} |}
    "Heart Sutra").
  - reflexivity.
  - reflexivity.
  - discriminate.
Defined.



